(** * voice-of-upsa: the two meta-tag inspection scripts

    [scripts/inspect_meta.py] fetches a page over HTTP and dumps the attribute
    dictionary of every [<meta>] element carrying a [property] or a [name];
    [scripts/inspect_meta_bs4.py] reads a local file and prints [name: content]
    for every [<meta>] element with a truthy key.  Both print the page title.

    The scripts are embedded shallowly.  Python values become Rocq values,
    [print] appends to an explicit standard-output log, and a raised exception
    is an explicit outcome, so that [try ... except Exception] and the absence
    of any handler in the file script can both be read off the definitions.
    The third-party calls ([requests.get], [open], [BeautifulSoup(...)] and the
    built-in [str] of a dictionary) are parameters of the development: the
    scripts are verified for every behaviour those calls may have. *)

From Stdlib Require Import List String Ascii Bool ZArith Lia DecimalString.
From Stdlib Require DecimalZ.
Import ListNotations.
Open Scope string_scope.

(** ** Python: values, exceptions, printing *)

Module Py.

(** The part of the exception hierarchy that the scripts can meet.  Every
    class below derives from [BaseException]; only [KeyboardInterrupt]
    (the user interrupting a slow fetch) does not derive from [Exception]. *)
Inductive exn_class : Type :=
| ConnectionError      (* requests.exceptions.ConnectionError: DNS, refused, TLS *)
| Timeout              (* requests.exceptions.Timeout *)
| MissingSchema        (* requests.exceptions.MissingSchema / InvalidURL *)
| FileNotFoundError
| PermissionError
| UnicodeDecodeError
| RecursionError
| KeyboardInterrupt.

Record exn : Type := mk_exn { exn_cls : exn_class; exn_msg : string }.

(** [isinstance(e, Exception)] *)
Definition is_Exception (e : exn) : bool :=
  match exn_cls e with
  | KeyboardInterrupt => false
  | _ => true
  end.



(** How a call ends: with a value, or with a raised exception. *)
Inductive result (A : Type) : Type :=
| Returns (a : A)
| Raises (e : exn).
Arguments Returns {A} a.
Arguments Raises {A} e.

(** A computation threads standard output.  The log holds the text of each
    [print] call in order; [print] ends each of them with a newline. *)
Definition stdout : Type := list string.
Definition IO (A : Type) : Type := stdout -> stdout * result A.

Definition ret {A} (a : A) : IO A := fun out => (out, Returns a).

Definition bind {A B} (m : IO A) (k : A -> IO B) : IO B :=
  fun out =>
    match m out with
    | (out', Returns a) => k a out'
    | (out', Raises e) => (out', Raises e)
    end.

(** The outcome of a call into the outside world, taken as it comes. *)
Definition call {A} (r : result A) : IO A := fun out => (out, r).

Definition print (s : string) : IO unit := fun out => ((out ++ [s])%list, Returns tt).

(** [try: body  except Exception as e: handler(e)].  An exception whose
    class does not derive from [Exception] passes through the clause. *)
Definition try_except_Exception (body : IO unit) (handler : exn -> IO unit)
  : IO unit :=
  fun out =>
    match body out with
    | (out', Returns tt) => (out', Returns tt)
    | (out', Raises e) =>
        if is_Exception e then handler e out' else (out', Raises e)
    end.

(** [for x in l: body(x)] *)
Fixpoint for_each {A} (l : list A) (body : A -> IO unit) : IO unit :=
  match l with
  | [] => ret tt
  | x :: rest => bind (body x) (fun _ => for_each rest body)
  end.


(** Python values of type [Optional[str]]: [None] or a string. *)
Definition truthy (v : option string) : bool :=
  match v with
  | None => false
  | Some s => negb (s =? "")
  end.

(** [a or b] *)
Definition or_ (a b : option string) : option string :=
  if truthy a then a else b.

(** [str(v)], as an f-string field renders it. *)
Definition str (v : option string) : string :=
  match v with
  | None => "None"
  | Some s => s
  end.

(** [str(n)] for an [int]. *)
Definition str_int (n : Z) : string := NilZero.string_of_int (Z.to_int n).

(** The one-character string written ["\n"] in the scripts. *)
Definition nl : string := String (ascii_of_nat 10) EmptyString.

End Py.

Notation "x <- m ;; k" := (Py.bind m (fun x => k))
  (at level 100, m at next level, right associativity).
Notation "m ;;; k" := (Py.bind m (fun _ => k))
  (at level 100, right associativity).

(** ** BeautifulSoup: the parsed tree and the calls the scripts make on it *)

Module bs4.

(** [Tag.attrs]: a dictionary in insertion order.  The keys the scripts read
    ([name], [property], [content]) always hold strings; a multi-valued
    attribute such as [class] is kept as the text written in the document. *)
Definition Attrs : Type := list (string * string).

(** A node of the tree.  [NavigableString] stands for the strings that
    [get_text] keeps ([NavigableString] itself and [CData]); [Comment] stands
    for the subclasses it leaves out ([Comment], [Doctype], [Declaration],
    [ProcessingInstruction], [Script], [Stylesheet]). *)
#[warnings="-register-all"]
Inductive PageElement : Type :=
| Tag (name : string) (attrs : Attrs) (contents : list PageElement)
| NavigableString (s : string)
| Comment (s : string).

(** The [BeautifulSoup] object is itself a tag (named [[document]]); only
    its contents matter to the scripts. *)
Definition Soup : Type := list PageElement.

(** [key in d] and [d.get(key)] on a dictionary. *)
Fixpoint dict_get (key : string) (d : Attrs) : option string :=
  match d with
  | [] => None
  | (k, v) :: rest => if k =? key then Some v else dict_get key rest
  end.

Definition dict_in (key : string) (d : Attrs) : bool :=
  match dict_get key d with
  | Some _ => true
  | None => false
  end.

(** A node followed by everything below it, in document order. *)
Fixpoint subtree (n : PageElement) : list PageElement :=
  match n with
  | Tag _ _ cs => n :: flat_map subtree cs
  | _ => [n]
  end.

(** [Tag.descendants]: every node strictly below, in document order. *)
Definition descendants (contents : list PageElement) : list PageElement :=
  flat_map subtree contents.

Definition tag_contents (n : PageElement) : list PageElement :=
  match n with
  | Tag _ _ cs => cs
  | _ => []
  end.

(** [tag.attrs] *)
Definition tag_attrs (n : PageElement) : Attrs :=
  match n with
  | Tag _ a _ => a
  | _ => []
  end.

Definition is_tag_named (name : string) (n : PageElement) : bool :=
  match n with
  | Tag nm _ _ => nm =? name
  | _ => false
  end.

(** [soup.find_all(name)] *)
Definition find_all (name : string) (soup : Soup) : list PageElement :=
  filter (is_tag_named name) (descendants soup).

(** [soup.find(name)]: the first result of [find_all], or [None]. *)
Definition find (name : string) (soup : Soup) : option PageElement :=
  match find_all name soup with
  | [] => None
  | t :: _ => Some t
  end.

(** [soup.title] is [soup.find('title')]. *)
Definition title (soup : Soup) : option PageElement := find "title" soup.

(** [tag.get(key)] *)
Definition get (key : string) (n : PageElement) : option string :=
  dict_get key (tag_attrs n).

(** [tag.string]: the single string child, looked for through a chain of
    single children; [None] when some tag on the way has no child or more
    than one. *)
Fixpoint string_ (n : PageElement) : option string :=
  match n with
  | Tag _ _ [child] => string_ child
  | Tag _ _ _ => None
  | NavigableString s => Some s
  | Comment s => Some s
  end.

Definition own_text (n : PageElement) : string :=
  match n with
  | NavigableString s => s
  | _ => ""
  end.

(** [tag.text]: the strings below the tag, joined in document order. *)
Definition text (n : PageElement) : string :=
  String.concat "" (map own_text (descendants (tag_contents n))).

End bs4.

(** ** The outside world *)

(** What [requests.get] hands back.  [response.text] decodes the body when it
    is read, after the status code has been printed. *)
Record Response : Type := mk_Response {
  status_code : Z;
  response_text : Py.result string
}.

(** The file object bound by [with open(...) as f]; [f.read()] decodes. *)
Record TextFile : Type := mk_TextFile {
  read : Py.result string
}.

(** One environment for a run: the network, the file system, the parser and
    the built-in rendering of a dictionary. *)
Record World : Type := mk_World {
  requests_get : string -> bs4.Attrs -> Py.result Response;
  open_utf8 : string -> Py.result TextFile;
  BeautifulSoup : string -> Py.result bs4.Soup;
  dict_str : bs4.Attrs -> string
}.

(** ** scripts/inspect_meta.py *)

Section Scripts.

Variable w : World.

Definition headers : bs4.Attrs := [("User-Agent", "WhatsApp/2.21.12.21 A")].

(** Body of the loop over [soup.find_all('meta')]. *)
Definition dump_meta (meta : bs4.PageElement) : Py.IO unit :=
  let props := bs4.tag_attrs meta in
  if bs4.dict_in "property" props || bs4.dict_in "name" props
  then Py.print (dict_str w props)
  else Py.ret tt.

(** [soup.title.string if soup.title else "No title tag"]; a tag is always
    truthy. *)
Definition title_string (soup : bs4.Soup) : option string :=
  match bs4.title soup with
  | Some t => bs4.string_ t
  | None => Some "No title tag"
  end.

(** Lines 13-22: from the parse to the title, for the text of a response. *)
Definition inspect_meta_page (html : Py.result string) : Py.IO unit :=
  html <- Py.call html ;;
  soup <- Py.call (BeautifulSoup w html) ;;
  Py.print (Py.nl ++ "--- Meta Tags in Head ---") ;;;
  Py.for_each (bs4.find_all "meta" soup) dump_meta ;;;
  Py.print (Py.nl ++ "--- Title ---") ;;;
  Py.print (Py.str (title_string soup)).

(** Lines 11-22: the body of the [try]. *)
Definition inspect_meta_body (url : string) : Py.IO unit :=
  response <- Py.call (requests_get w url headers) ;;
  Py.print ("Status Code: " ++ Py.str_int (status_code response)) ;;;
  inspect_meta_page (response_text response).

Definition inspect_meta (url : string) : Py.IO unit :=
  Py.try_except_Exception
    (inspect_meta_body url)
    (fun e => Py.print ("Error: " ++ Py.exn_msg e)).

Definition default_url : string :=
  "https://voiceofupsa.com/articles/beyond-the-lecture-hall-how-upsa-students-are-redefining-success".


(** ** scripts/inspect_meta_bs4.py *)

(** What the loop computes for one tag: the pair of [name] and [content],
    kept when [name] is truthy. *)
Definition meta_entry (tag : bs4.PageElement)
  : option (option string * option string) :=
  let name := Py.or_ (bs4.get "name" tag) (bs4.get "property" tag) in
  let content := bs4.get "content" tag in
  if Py.truthy name then Some (name, content) else None.

(** [f"{name}: {content}"] *)
Definition entry_line (entry : option string * option string) : string :=
  Py.str (fst entry) ++ ": " ++ Py.str (snd entry).

Definition print_meta (tag : bs4.PageElement) : Py.IO unit :=
  match meta_entry tag with
  | Some entry => Py.print (entry_line entry)
  | None => Py.ret tt
  end.

(** [title.text if title else "No title found"] *)
Definition title_text (soup : bs4.Soup) : string :=
  match bs4.find "title" soup with
  | Some t => bs4.text t
  | None => "No title found"
  end.

(** Lines 8-20: from the parse to the title, for the text of a file. *)
Definition inspect_html_page (html : string) : Py.IO unit :=
  soup <- Py.call (BeautifulSoup w html) ;;
  Py.print "--- Meta Tags ---" ;;;
  let meta_tags := bs4.find_all "meta" soup in
  Py.for_each meta_tags print_meta ;;;
  Py.print (Py.nl ++ "--- Title ---") ;;;
  Py.print (title_text soup).

Definition inspect_html (file_path : string) : Py.IO unit :=
  f <- Py.call (open_utf8 w file_path) ;;
  html <- Py.call (read f) ;;
  inspect_html_page html.



End Scripts.

(** ** The records behind the printed lines *)

(** The test of the network script: the tag has a [property] or a [name]. *)
Definition has_property_or_name (meta : bs4.PageElement) : bool :=
  bs4.dict_in "property" (bs4.tag_attrs meta) || bs4.dict_in "name" (bs4.tag_attrs meta).

(** The test of the file script: [name or property] is truthy. *)
Definition has_entry (tag : bs4.PageElement) : bool :=
  match meta_entry tag with
  | Some _ => true
  | None => false
  end.

(** Raw-dump mode: the tags that are printed, and their attribute mappings. *)
Definition raw_emitted (soup : bs4.Soup) : list bs4.PageElement :=
  filter has_property_or_name (bs4.find_all "meta" soup).

Definition raw_records (soup : bs4.Soup) : list bs4.Attrs :=
  map bs4.tag_attrs (raw_emitted soup).

(** Normalized mode: the tags that are printed, and their entries. *)
Definition normalized_emitted (soup : bs4.Soup) : list bs4.PageElement :=
  filter has_entry (bs4.find_all "meta" soup).

Fixpoint entries (tags : list bs4.PageElement)
  : list (option string * option string) :=
  match tags with
  | [] => []
  | tag :: rest =>
      match meta_entry tag with
      | Some entry => entry :: entries rest
      | None => entries rest
      end
  end.

Definition normalized_records (soup : bs4.Soup)
  : list (option string * option string) :=
  entries (bs4.find_all "meta" soup).


(** [l1] is [l2] with some elements left out, the others in the same order. *)
Inductive subseq {A : Type} : list A -> list A -> Prop :=
| subseq_nil : subseq [] []
| subseq_skip (x : A) (l1 l2 : list A) : subseq l1 l2 -> subseq l1 (x :: l2)
| subseq_take (x : A) (l1 l2 : list A) : subseq l1 l2 -> subseq (x :: l1) (x :: l2).

(** What a run prints once the document is parsed, as a function of the
    tree: the lines of a successful run of each script after the status line. *)
Definition title_banner : string := Py.nl ++ "--- Title ---".

Definition raw_transcript (w : World) (soup : bs4.Soup) : list string :=
  ([(Py.nl ++ "--- Meta Tags in Head ---")%string]
   ++ map (dict_str w) (raw_records soup)
   ++ [title_banner; Py.str (title_string soup)])%list.

Definition normalized_transcript (soup : bs4.Soup) : list string :=
  (["--- Meta Tags ---"]
   ++ map entry_line (normalized_records soup)
   ++ [title_banner; title_text soup])%list.

(** ** Sample documents and environments *)

Module Samples.
Import bs4.

(** [<html><head><title>Hello</title></head></html>] *)
Definition hello_html : string := "<html><head><title>Hello</title></head></html>".
Definition hello : Soup :=
  [Tag "html" [] [Tag "head" [] [Tag "title" [] [NavigableString "Hello"]]]].

(** [<html><body>no title here</body></html>] *)
Definition untitled : Soup :=
  [Tag "html" [] [Tag "body" [] [NavigableString "no title here"]]].


(** [<meta name="description" property="og:title" content="Example">] *)
Definition both_keys : PageElement :=
  Tag "meta" [("name", "description"); ("property", "og:title"); ("content", "Example")] [].

(** [<meta property="og:title" content="Example">] *)
Definition og_title : PageElement :=
  Tag "meta" [("property", "og:title"); ("content", "Example")] [].

(** [<meta name="" property="og:type">] *)
Definition empty_name : PageElement :=
  Tag "meta" [("name", ""); ("property", "og:type")] [].

(** [<meta name="" property="">] *)
Definition empty_keys : PageElement :=
  Tag "meta" [("name", ""); ("property", "")] [].

(** [<meta charset="utf-8">] *)
Definition charset : PageElement := Tag "meta" [("charset", "utf-8")] [].

(** [<meta name="robots">] and [<meta name="robots" content="">] *)
Definition no_content : PageElement := Tag "meta" [("name", "robots")] [].
Definition empty_content : PageElement :=
  Tag "meta" [("name", "robots"); ("content", "")] [].

(** The scenario of the file script:
    [<meta property=og:title content=Example><title>Example Page</title>] *)
Definition scenario : Soup :=
  [og_title; Tag "title" [] [NavigableString "Example Page"]].

(** A dictionary rendering good enough for keys and values free of quotes
    and escapes. *)
Fixpoint items_str (d : Attrs) : string :=
  match d with
  | [] => ""
  | [(k, v)] => "'" ++ k ++ "': '" ++ v ++ "'"
  | (k, v) :: rest => "'" ++ k ++ "': '" ++ v ++ "', " ++ items_str rest
  end.
Definition plain_dict_str (d : Attrs) : string := "{" ++ items_str d ++ "}".

(** An environment that answers every request, every [open] and every parse
    the same way. *)
Definition world (net : Py.result Response) (file : Py.result TextFile)
                 (tree : Py.result Soup) : World :=
  {| requests_get := fun _ _ => net;
     open_utf8 := fun _ => file;
     BeautifulSoup := fun _ => tree;
     dict_str := plain_dict_str |}.

Definition default_page : string := default_url.

Definition no_such_file : Py.exn :=
  Py.mk_exn Py.FileNotFoundError
    "[Errno 2] No such file or directory: 'article_debug_3.html'".

Definition name_resolution : Py.exn :=
  Py.mk_exn Py.ConnectionError "Failed to resolve 'no-such-host.invalid'".


Definition ok_page : Response :=
  {| status_code := 200; response_text := Py.Returns hello_html |}.

(** The page is served, the file is missing, the parse succeeds. *)
Definition online : World :=
  world (Py.Returns ok_page) (Py.Raises no_such_file) (Py.Returns hello).



(** The page is served and has no title. *)
Definition untitled_html : string := "<html><body>no title here</body></html>".
Definition untitled_page : Response :=
  {| status_code := 200; response_text := Py.Returns untitled_html |}.
Definition online_untitled : World :=
  world (Py.Returns untitled_page)
        (Py.Returns {| read := Py.Returns untitled_html |})
        (Py.Returns untitled).


(** The file is there and parses to [scenario]. *)
Definition on_disk : World :=
  world (Py.Raises name_resolution)
        (Py.Returns {| read := Py.Returns "<meta property=og:title content=Example><title>Example Page</title>" |})
        (Py.Returns scenario).

End Samples.

(** ** Further notions for the runs as a whole *)

(** The first line of a run whose fetch succeeded:
    [f"Status Code: {response.status_code}"]. *)
Definition status_line (r : Response) : string :=
  "Status Code: " ++ Py.str_int (status_code r).

(** [except Exception as e: print(f"Error: {e}")] *)
Definition error_line (e : Py.exn) : string := "Error: " ++ Py.exn_msg e.

(** No [Comment] (or other string that [get_text] leaves out) below the node. *)
Fixpoint comment_free (n : bs4.PageElement) : bool :=
  match n with
  | bs4.Tag _ _ cs => forallb comment_free cs
  | bs4.NavigableString _ => true
  | bs4.Comment _ => false
  end.

(** The two worlds parse every text alike and render every dictionary alike. *)
Definition same_parser (w1 w2 : World) : Prop :=
  (forall html, BeautifulSoup w1 html = BeautifulSoup w2 html) /\
  (forall d, dict_str w1 d = dict_str w2 d).

Module MoreSamples.
Import bs4.

(** The same page as [Samples.ok_page], served with another status. *)
Definition not_found_page : Response :=
  {| status_code := 404; response_text := Py.Returns Samples.hello_html |}.

Definition online_404 : World :=
  Samples.world (Py.Returns not_found_page) (Py.Raises Samples.no_such_file)
                (Py.Returns Samples.hello).

(** [<html><head><meta name=description content=News></head>
     <body><meta property=og:title content=Example><meta name=robots></body></html>] *)
Definition description : PageElement :=
  Tag "meta" [("name", "description"); ("content", "News")] [].

Definition head_and_body : Soup :=
  [Tag "html" []
     [Tag "head" [] [description];
      Tag "body" [] [Samples.og_title; Samples.no_content]]].

(** [<meta name=robots content=None>] *)
Definition content_None : PageElement :=
  Tag "meta" [("name", "robots"); ("content", "None")] [].

(** [<title><b>Hello</b></title>] *)
Definition bold_title : Soup :=
  [Tag "title" [] [Tag "b" [] [NavigableString "Hello"]]].


End MoreSamples.

(** * Properties *)

(** ** Strings and Python values *)

Lemma truthy_Some (s : string) : s <> EmptyString -> Py.truthy (Some s) = true.
Proof.
  intros Hs. unfold Py.truthy.
  destruct (String.eqb_spec s EmptyString); [contradiction | reflexivity].
Qed.

Lemma truthy_inv (v : option string) :
  Py.truthy v = true -> exists s, v = Some s /\ s <> EmptyString.
Proof.
  destruct v as [s|]; simpl; [|discriminate].
  destruct (String.eqb_spec s EmptyString); [discriminate|].
  intros _. now exists s.
Qed.

Lemma or_truthy_left (a b : option string) :
  Py.truthy a = true -> Py.or_ a b = a.
Proof. intros H. unfold Py.or_. now rewrite H. Qed.

Lemma or_falsy_left (a b : option string) :
  Py.truthy a = false -> Py.or_ a b = b.
Proof. intros H. unfold Py.or_. now rewrite H. Qed.

Lemma append_assoc (a b c : string) : (a ++ b) ++ c = a ++ (b ++ c).
Proof. induction a as [|x a IH]; simpl; [reflexivity | now rewrite IH]. Qed.

(** Two strings that end in different characters are different. *)
Lemma last_char_differs (x y : ascii) (a b : string) :
  x <> y -> a ++ String x EmptyString <> b ++ String y EmptyString.
Proof.
  intros Hxy. revert b.
  induction a as [|c a IH]; intros [|d b]; simpl; intros E.
  - now inversion E.
  - inversion E as [[Hc Hb]]. destruct b; discriminate.
  - inversion E as [[Hc Ha]]. destruct a; discriminate.
  - inversion E as [[Hc Hab]]. now apply (IH b).
Qed.

(** ** The entry of one tag in the file script *)

Lemma meta_entry_name (tag : bs4.PageElement) (n : string) :
  bs4.get "name" tag = Some n -> n <> EmptyString ->
  meta_entry tag = Some (Some n, bs4.get "content" tag).
Proof.
  intros Hn Hne. unfold meta_entry.
  rewrite Hn, (or_truthy_left _ _ (truthy_Some n Hne)).
  now rewrite (truthy_Some n Hne).
Qed.

Lemma meta_entry_property (tag : bs4.PageElement) (p : string) :
  Py.truthy (bs4.get "name" tag) = false ->
  bs4.get "property" tag = Some p -> p <> EmptyString ->
  meta_entry tag = Some (Some p, bs4.get "content" tag).
Proof.
  intros Hn Hp Hpe. unfold meta_entry.
  rewrite (or_falsy_left _ _ Hn), Hp.
  now rewrite (truthy_Some p Hpe).
Qed.

Lemma meta_entry_none (tag : bs4.PageElement) :
  Py.truthy (bs4.get "name" tag) = false ->
  Py.truthy (bs4.get "property" tag) = false ->
  meta_entry tag = None.
Proof.
  intros Hn Hp. unfold meta_entry.
  now rewrite (or_falsy_left _ _ Hn), Hp.
Qed.

Lemma meta_entry_inv (tag : bs4.PageElement) (e : option string * option string) :
  meta_entry tag = Some e ->
  exists key, fst e = Some key /\ key <> EmptyString /\
              snd e = bs4.get "content" tag.
Proof.
  unfold meta_entry.
  destruct (Py.truthy (Py.or_ _ _)) eqn:T; [|discriminate].
  intros E. inversion E; subst e; simpl.
  destruct (truthy_inv _ T) as (key & Hk & Hne).
  exists key. now rewrite Hk.
Qed.

Lemma print_meta_none (tag : bs4.PageElement) (out : Py.stdout) :
  meta_entry tag = None -> print_meta tag out = (out, Py.Returns tt).
Proof. intros H. unfold print_meta. now rewrite H. Qed.

Lemma print_meta_some (tag : bs4.PageElement) e (out : Py.stdout) :
  meta_entry tag = Some e ->
  print_meta tag out = ((out ++ [entry_line e])%list, Py.Returns tt).
Proof. intros H. unfold print_meta. now rewrite H. Qed.

(** C1, as stated, fails: on a tag that carries both attributes the key is the
    value of [name], not the value of [property]. *)
Lemma C1_name_takes_precedence :
  bs4.get "property" Samples.both_keys = Some "og:title" /\
  bs4.get "name" Samples.both_keys = Some "description" /\
  meta_entry Samples.both_keys = Some (Some "description", Some "Example") /\
  ~ (forall tag p, bs4.get "property" tag = Some p ->
       exists e, meta_entry tag = Some e /\ fst e = Some p).
Proof.
  repeat split.
  intros H. destruct (H Samples.both_keys "og:title" eq_refl) as (e & He & Hk).
  vm_compute in He. inversion He; subst e. discriminate Hk.
Qed.

(** C1 (amended): in the file script the key of a tag is the value of its
    [name] attribute when that is present and not empty; otherwise it is the
    value of its [property] attribute when that is present and not empty; a
    tag with neither attribute has no entry and prints nothing. *)
Theorem C1_key_of_entry (tag : bs4.PageElement) :
  (forall n, bs4.get "name" tag = Some n -> n <> EmptyString ->
     meta_entry tag = Some (Some n, bs4.get "content" tag)) /\
  (forall p, bs4.get "name" tag = None \/ bs4.get "name" tag = Some EmptyString ->
     bs4.get "property" tag = Some p -> p <> EmptyString ->
     meta_entry tag = Some (Some p, bs4.get "content" tag)) /\
  (bs4.get "name" tag = None -> bs4.get "property" tag = None ->
     meta_entry tag = None /\
     forall out, print_meta tag out = (out, Py.Returns tt)).
Proof.
  split; [|split].
  - intros n Hn Hne. now apply meta_entry_name.
  - intros p Hn Hp Hpe. apply meta_entry_property; trivial.
    destruct Hn as [-> | ->]; reflexivity.
  - intros Hn Hp.
    assert (E : meta_entry tag = None)
      by (apply meta_entry_none; [rewrite Hn | rewrite Hp]; reflexivity).
    split; [exact E | intros out; now apply print_meta_none].
Qed.

Lemma C1_key_of_entry_witness :
  meta_entry Samples.both_keys = Some (Some "description", Some "Example") /\
  meta_entry Samples.og_title = Some (Some "og:title", Some "Example") /\
  meta_entry Samples.charset = None.
Proof.
  split; [|split].
  - apply (proj1 (C1_key_of_entry Samples.both_keys) "description");
      [reflexivity | discriminate].
  - apply (proj1 (proj2 (C1_key_of_entry Samples.og_title)) "og:title");
      [left; reflexivity | reflexivity | discriminate].
  - apply (proj2 (proj2 (C1_key_of_entry Samples.charset))); reflexivity.
Defined.

(** C9: in the file script a tag whose [name] is the empty string has no
    entry when its [property] is the empty string too, and takes its key from
    [property] when that one is not empty: the test is the truthiness of the
    values, not the presence of the attributes. *)
Theorem C9_empty_values_are_falsy (tag : bs4.PageElement) :
  bs4.get "name" tag = Some EmptyString ->
  (bs4.get "property" tag = Some EmptyString ->
     meta_entry tag = None /\
     forall out, print_meta tag out = (out, Py.Returns tt)) /\
  (forall p, bs4.get "property" tag = Some p -> p <> EmptyString ->
     meta_entry tag = Some (Some p, bs4.get "content" tag) /\
     forall out, print_meta tag out =
       ((out ++ [(p ++ ": " ++ Py.str (bs4.get "content" tag))%string])%list,
        Py.Returns tt)).
Proof.
  intros Hn. split.
  - intros Hp.
    assert (E : meta_entry tag = None)
      by (apply meta_entry_none; [rewrite Hn | rewrite Hp]; reflexivity).
    split; [exact E | intros out; now apply print_meta_none].
  - intros p Hp Hpe.
    assert (E : meta_entry tag = Some (Some p, bs4.get "content" tag))
      by (apply meta_entry_property; trivial; now rewrite Hn).
    split; [exact E | intros out; now rewrite (print_meta_some _ _ out E)].
Qed.

Lemma C9_empty_values_are_falsy_witness :
  meta_entry Samples.empty_keys = None /\
  meta_entry Samples.empty_name = Some (Some "og:type", None).
Proof.
  split.
  - apply (proj1 (C9_empty_values_are_falsy Samples.empty_keys eq_refl)).
    reflexivity.
  - apply (proj2 (C9_empty_values_are_falsy Samples.empty_name eq_refl) "og:type");
      [reflexivity | discriminate].
Defined.

(** C5: in the file script a tag without [content] that is emitted yields an
    entry whose value is [None], not the empty string; its entry and its
    printed line differ from those of any tag whose [content] is the empty
    string. *)
Theorem C5_absent_content_is_None
    (t1 : bs4.PageElement) (e1 : option string * option string) :
  bs4.get "content" t1 = None ->
  meta_entry t1 = Some e1 ->
  snd e1 = None /\ snd e1 <> Some EmptyString /\
  (forall t2 e2,
     bs4.get "content" t2 = Some EmptyString ->
     meta_entry t2 = Some e2 ->
     snd e2 = Some EmptyString /\ e1 <> e2 /\ entry_line e1 <> entry_line e2).
Proof.
  intros C1 E1.
  destruct (meta_entry_inv _ _ E1) as (k1 & K1 & _ & V1).
  rewrite C1 in V1.
  split; [exact V1 | split; [rewrite V1; discriminate|]].
  intros t2 e2 C2 E2.
  destruct (meta_entry_inv _ _ E2) as (k2 & K2 & _ & V2).
  rewrite C2 in V2.
  split; [exact V2 | split].
  - intros ->. rewrite V1 in V2. discriminate.
  - unfold entry_line. rewrite K1, K2, V1, V2. simpl Py.str.
    replace (k1 ++ ": " ++ "None") with ((k1 ++ ": Non") ++ "e")
      by (now rewrite append_assoc).
    replace (k2 ++ ": " ++ EmptyString) with ((k2 ++ ":") ++ " ")
      by (now rewrite append_assoc).
    apply last_char_differs. discriminate.
Qed.

Lemma C5_absent_content_is_None_witness :
  meta_entry Samples.no_content = Some (Some "robots", None) /\
  meta_entry Samples.empty_content = Some (Some "robots", Some EmptyString) /\
  entry_line (Some "robots", None) <>
  entry_line (Some "robots", Some EmptyString).
Proof.
  destruct (C5_absent_content_is_None Samples.no_content
              (Some "robots", None) eq_refl eq_refl) as (_ & _ & D).
  split; [reflexivity | split; [reflexivity|]].
  apply (D Samples.empty_content (Some "robots", Some EmptyString));
    reflexivity.
Defined.

(** ** Subsequences *)

Section Subseq.
Context {A : Type}.

Lemma subseq_refl (l : list A) : subseq l l.
Proof. induction l; now constructor. Qed.



Lemma subseq_length (l1 l2 : list A) :
  subseq l1 l2 -> List.length l1 <= List.length l2.
Proof. induction 1; simpl; lia. Qed.



Lemma filter_none (p : A -> bool) (l : list A) :
  (forall x, In x l -> p x = false) -> filter p l = [].
Proof.
  induction l as [|a l IH]; simpl; intros H; [reflexivity|].
  rewrite (H a (or_introl eq_refl)). apply IH. intros x Hx. apply H. now right.
Qed.

End Subseq.

(** ** The two loops *)

Lemma for_each_dump_meta (w : World) (metas : list bs4.PageElement) (out : Py.stdout) :
  Py.for_each metas (dump_meta w) out =
  ((out ++ map (dict_str w)
             (map bs4.tag_attrs (filter has_property_or_name metas)))%list,
   Py.Returns tt).
Proof.
  revert out. induction metas as [|m metas IH]; intros out; simpl.
  - unfold Py.ret. now rewrite app_nil_r.
  - unfold Py.bind, dump_meta. fold (has_property_or_name m).
    destruct (has_property_or_name m); simpl; rewrite IH.
    + now rewrite <- app_assoc.
    + reflexivity.
Qed.

Lemma for_each_print_meta (tags : list bs4.PageElement) (out : Py.stdout) :
  Py.for_each tags print_meta out =
  ((out ++ map entry_line (entries tags))%list, Py.Returns tt).
Proof.
  revert out. induction tags as [|t tags IH]; intros out; simpl.
  - unfold Py.ret. now rewrite app_nil_r.
  - unfold Py.bind, print_meta.
    destruct (meta_entry t) as [e|]; simpl; rewrite IH.
    + now rewrite <- app_assoc.
    + reflexivity.
Qed.


Lemma dict_in_get (key : string) (d : bs4.Attrs) (v : string) :
  bs4.dict_get key d = Some v -> bs4.dict_in key d = true.
Proof. intros H. unfold bs4.dict_in. now rewrite H. Qed.

(** A tag with an entry carries a [name] or a [property]. *)
Lemma has_entry_keyed (tag : bs4.PageElement) :
  has_entry tag = true -> has_property_or_name tag = true.
Proof.
  unfold has_entry, meta_entry, has_property_or_name, Py.or_, bs4.get.
  destruct (Py.truthy (bs4.dict_get "name" _)) eqn:Tn.
  - destruct (truthy_inv _ Tn) as (n & Hn & _).
    intros _. rewrite (dict_in_get _ _ _ Hn). apply orb_true_r.
  - destruct (Py.truthy (bs4.dict_get "property" _)) eqn:Tp; [|discriminate].
    destruct (truthy_inv _ Tp) as (p & Hp & _).
    intros _. now rewrite (dict_in_get _ _ _ Hp).
Qed.



(** ** The title *)


Lemma find_none (name : string) (soup : bs4.Soup) :
  (forall n, In n (bs4.descendants soup) -> bs4.is_tag_named name n = false) ->
  bs4.find name soup = None.
Proof.
  intros H. unfold bs4.find, bs4.find_all. now rewrite (filter_none _ _ H).
Qed.







(** ** Successful runs *)

Lemma inspect_meta_page_ok (w : World) (html : string) (soup : bs4.Soup)
    (out : Py.stdout) :
  BeautifulSoup w html = Py.Returns soup ->
  inspect_meta_page w (Py.Returns html) out =
  ((out ++ raw_transcript w soup)%list, Py.Returns tt).
Proof.
  intros P. unfold inspect_meta_page, Py.bind, Py.call. rewrite P.
  unfold Py.print at 1. rewrite for_each_dump_meta.
  unfold Py.print, raw_transcript, raw_records, raw_emitted, title_banner.
  now rewrite <- !app_assoc.
Qed.

Lemma inspect_html_page_ok (w : World) (html : string) (soup : bs4.Soup)
    (out : Py.stdout) :
  BeautifulSoup w html = Py.Returns soup ->
  inspect_html_page w html out =
  ((out ++ normalized_transcript soup)%list, Py.Returns tt).
Proof.
  intros P. unfold inspect_html_page, Py.bind, Py.call. rewrite P.
  unfold Py.print at 1. rewrite for_each_print_meta.
  unfold Py.print, normalized_transcript, normalized_records, title_banner.
  now rewrite <- !app_assoc.
Qed.

Lemma inspect_meta_ok (w : World) (url html : string) (r : Response)
    (soup : bs4.Soup) (out : Py.stdout) :
  requests_get w url headers = Py.Returns r ->
  response_text r = Py.Returns html ->
  BeautifulSoup w html = Py.Returns soup ->
  inspect_meta w url out =
  ((out ++ ("Status Code: " ++ Py.str_int (status_code r))%string
        :: raw_transcript w soup)%list, Py.Returns tt).
Proof.
  intros G T P.
  unfold inspect_meta, Py.try_except_Exception, inspect_meta_body, Py.bind, Py.call.
  rewrite G. unfold Py.print at 1. rewrite T, (inspect_meta_page_ok _ _ _ _ P).
  now rewrite <- app_assoc.
Qed.

Lemma inspect_html_ok (w : World) (path html : string) (f : TextFile)
    (soup : bs4.Soup) (out : Py.stdout) :
  open_utf8 w path = Py.Returns f ->
  read f = Py.Returns html ->
  BeautifulSoup w html = Py.Returns soup ->
  inspect_html w path out =
  ((out ++ normalized_transcript soup)%list, Py.Returns tt).
Proof.
  intros O R P. unfold inspect_html, Py.bind, Py.call.
  rewrite O, R. now apply inspect_html_page_ok.
Qed.

(** C7: when the document has no [<title>] element, the title expression of
    each script evaluates without a fault to its absent indicator, and a run
    whose fetch (or read) and parse succeed returns normally with
    [No title tag] (network) or [No title found] (file) as its last line. *)
Theorem C7_no_title (w : World) (soup : bs4.Soup) :
  (forall n, In n (bs4.descendants soup) -> bs4.is_tag_named "title" n = false) ->
  Py.str (title_string soup) = "No title tag" /\
  title_text soup = "No title found" /\
  (forall url r html out,
     requests_get w url headers = Py.Returns r ->
     response_text r = Py.Returns html ->
     BeautifulSoup w html = Py.Returns soup ->
     exists lines,
       inspect_meta w url out =
       ((out ++ lines ++ ["No title tag"])%list, Py.Returns tt)) /\
  (forall path f html out,
     open_utf8 w path = Py.Returns f ->
     read f = Py.Returns html ->
     BeautifulSoup w html = Py.Returns soup ->
     exists lines,
       inspect_html w path out =
       ((out ++ lines ++ ["No title found"])%list, Py.Returns tt)).
Proof.
  intros H.
  assert (Ts : Py.str (title_string soup) = "No title tag")
    by (unfold title_string, bs4.title; now rewrite (find_none _ _ H)).
  assert (Tt : title_text soup = "No title found")
    by (unfold title_text; now rewrite (find_none _ _ H)).
  repeat split; trivial.
  - intros url r html out G T P.
    rewrite (inspect_meta_ok _ _ _ _ _ out G T P).
    unfold raw_transcript. rewrite Ts.
    exists (("Status Code: " ++ Py.str_int (status_code r))%string
            :: (Py.nl ++ "--- Meta Tags in Head ---")%string
            :: map (dict_str w) (raw_records soup) ++ [title_banner])%list.
    simpl. now rewrite <- app_assoc.
  - intros path f html out O R P.
    rewrite (inspect_html_ok _ _ _ _ _ out O R P).
    unfold normalized_transcript. rewrite Tt.
    exists ("--- Meta Tags ---"
            :: map entry_line (normalized_records soup) ++ [title_banner])%list.
    simpl. now rewrite <- app_assoc.
Qed.

Lemma C7_no_title_witness :
  Py.str (title_string Samples.untitled) = "No title tag" /\
  title_text Samples.untitled = "No title found" /\
  snd (inspect_meta Samples.online_untitled "https://voiceofupsa.com/" []) =
    Py.Returns tt.
Proof.
  assert (H : forall n, In n (bs4.descendants Samples.untitled) ->
                        bs4.is_tag_named "title" n = false)
    by (simpl; intros n [<- | [<- | [<- | []]]]; reflexivity).
  destruct (C7_no_title Samples.online_untitled Samples.untitled H)
    as (Ts & Tt & Hnet & _).
  split; [exact Ts | split; [exact Tt|]].
  destruct (Hnet "https://voiceofupsa.com/" Samples.untitled_page Samples.untitled_html []
              eq_refl eq_refl eq_refl) as (lines & E).
  now rewrite E.
Defined.

(** The scenario of the file script: [og:title: Example] under the meta
    banner, then [Example Page] under the title banner. *)
Example inspect_html_scenario :
  inspect_html Samples.on_disk "article_debug_3.html" [] =
  (["--- Meta Tags ---"; "og:title: Example"; title_banner; "Example Page"],
   Py.Returns tt).
Proof. reflexivity. Qed.

Example inspect_meta_hello :
  inspect_meta Samples.online Samples.default_page [] =
  (["Status Code: 200"; (Py.nl ++ "--- Meta Tags in Head ---")%string;
    title_banner; "Hello"], Py.Returns tt).
Proof. reflexivity. Qed.

(** ** Faults *)

Ltac run_io :=
  unfold inspect_meta, inspect_meta_body, inspect_meta_page, inspect_html,
    Py.try_except_Exception, Py.bind, Py.call, Py.print.












(** ** Repeated runs *)





(** * Further properties of the two scripts *)

(** ** Whole runs *)











(** ** The status code *)

Lemma raw_transcript_ext (w1 w2 : World) (soup : bs4.Soup) :
  (forall d, dict_str w1 d = dict_str w2 d) ->
  raw_transcript w1 soup = raw_transcript w2 soup.
Proof.
  intros D. unfold raw_transcript. f_equal. f_equal.
  apply map_ext. exact D.
Qed.

Lemma inspect_meta_fetched_fault (w : World) (url : string) (r : Response)
    (e : Py.exn) (out : Py.stdout) :
  requests_get w url headers = Py.Returns r ->
  response_text r = Py.Raises e \/
  (exists html, response_text r = Py.Returns html /\
                BeautifulSoup w html = Py.Raises e) ->
  inspect_meta w url out =
    if Py.is_Exception e
    then ((out ++ status_line r :: [error_line e])%list, Py.Returns tt)
    else ((out ++ status_line r :: [])%list, Py.Raises e).
Proof.
  intros G F. run_io. rewrite G.
  destruct F as [T | (html & T & P)]; rewrite T; [|rewrite P];
    destruct (Py.is_Exception e); trivial; now rewrite <- app_assoc.
Qed.

(** X6: a status code is reported, never acted upon: two responses with the
    same body and different status codes (a 200 and a 404, say) lead to runs
    that differ in the status line only -- same lines after it, same way of
    ending. *)
Theorem status_code_only_in_status_line (w1 w2 : World) (url : string)
    (r1 r2 : Response) :
  requests_get w1 url headers = Py.Returns r1 ->
  requests_get w2 url headers = Py.Returns r2 ->
  response_text r1 = response_text r2 ->
  same_parser w1 w2 ->
  exists rest res, forall out,
    inspect_meta w1 url out = ((out ++ status_line r1 :: rest)%list, res) /\
    inspect_meta w2 url out = ((out ++ status_line r2 :: rest)%list, res).
Proof.
  intros G1 G2 T (P & D).
  destruct (response_text r1) as [html|e] eqn:T1.
  - destruct (BeautifulSoup w1 html) as [soup|e] eqn:P1.
    + exists (raw_transcript w1 soup), (Py.Returns tt). intros out. split.
      * now apply (inspect_meta_ok w1 url html).
      * rewrite (raw_transcript_ext w1 w2 soup D).
        apply (inspect_meta_ok w2 url html);
          [exact G2 | now symmetry | now rewrite <- P].
    + exists (if Py.is_Exception e then [error_line e] else []),
             (if Py.is_Exception e then Py.Returns tt else Py.Raises e).
      intros out. split.
      * rewrite (inspect_meta_fetched_fault w1 url r1 e out G1)
          by (right; now exists html).
        now destruct (Py.is_Exception e).
      * rewrite (inspect_meta_fetched_fault w2 url r2 e out G2)
          by (right; exists html; split; [now symmetry | now rewrite <- P]).
        now destruct (Py.is_Exception e).
  - exists (if Py.is_Exception e then [error_line e] else []),
           (if Py.is_Exception e then Py.Returns tt else Py.Raises e).
    intros out. split.
    + rewrite (inspect_meta_fetched_fault w1 url r1 e out G1) by now left.
      now destruct (Py.is_Exception e).
    + rewrite (inspect_meta_fetched_fault w2 url r2 e out G2)
        by (left; now symmetry).
      now destruct (Py.is_Exception e).
Qed.

Lemma status_code_only_in_status_line_witness :
  exists rest res, forall out,
    inspect_meta Samples.online "https://voiceofupsa.com/" out =
      ((out ++ "Status Code: 200" :: rest)%list, res) /\
    inspect_meta MoreSamples.online_404 "https://voiceofupsa.com/" out =
      ((out ++ "Status Code: 404" :: rest)%list, res).
Proof.
  apply (status_code_only_in_status_line Samples.online MoreSamples.online_404
           "https://voiceofupsa.com/" Samples.ok_page MoreSamples.not_found_page);
    try reflexivity.
  split; reflexivity.
Defined.

Lemma str_int_not_nil (n : Z) :
  Z.to_int n <> Decimal.Pos Decimal.Nil /\ Z.to_int n <> Decimal.Neg Decimal.Nil.
Proof.
  split; intros E;
    assert (N := DecimalZ.to_of (Z.to_int n));
    rewrite DecimalZ.of_to, E in N; cbv in N; discriminate N.
Qed.

Lemma append_inj_r (p a b : string) : p ++ a = p ++ b -> a = b.
Proof.
  induction p as [|c p IH]; simpl; intros E; [exact E|].
  inversion E. now apply IH.
Qed.

(** X7: the status line can be read back: the digits printed for a status
    code parse to that code, so two responses with the same status line have
    the same status code. *)
Theorem status_line_read_back :
  (forall n, option_map Z.of_int (NilZero.int_of_string (Py.str_int n)) = Some n) /\
  (forall r1 r2, status_line r1 = status_line r2 -> status_code r1 = status_code r2).
Proof.
  assert (R : forall n,
    option_map Z.of_int (NilZero.int_of_string (Py.str_int n)) = Some n).
  { intros n. unfold Py.str_int.
    destruct (str_int_not_nil n) as (P & N).
    rewrite (NilZero.isi _ P N). simpl. now rewrite DecimalZ.of_to. }
  split; [exact R|].
  intros r1 r2 E. unfold status_line in E. apply append_inj_r in E.
  assert (S : Some (status_code r1) = Some (status_code r2))
    by (now rewrite <- !R, E).
  now inversion S.
Qed.

(** ** Records and the shape of the document *)

Lemma find_all_app (name : string) (s1 s2 : bs4.Soup) :
  bs4.find_all name (s1 ++ s2)%list =
  (bs4.find_all name s1 ++ bs4.find_all name s2)%list.
Proof.
  unfold bs4.find_all, bs4.descendants.
  now rewrite flat_map_app, filter_app.
Qed.

Lemma find_all_tag (name nm : string) (a : bs4.Attrs) (cs : bs4.Soup) :
  bs4.find_all name [bs4.Tag nm a cs] =
  ((if nm =? name then [bs4.Tag nm a cs] else []) ++ bs4.find_all name cs)%list.
Proof.
  unfold bs4.find_all, bs4.descendants. simpl.
  rewrite app_nil_r. now destruct (nm =? name).
Qed.

Lemma entries_app (l1 l2 : list bs4.PageElement) :
  entries (l1 ++ l2)%list = (entries l1 ++ entries l2)%list.
Proof.
  induction l1 as [|t l1 IH]; simpl; [reflexivity|].
  destruct (meta_entry t); simpl; now rewrite IH.
Qed.

Lemma raw_records_app (s1 s2 : bs4.Soup) :
  raw_records (s1 ++ s2)%list = (raw_records s1 ++ raw_records s2)%list.
Proof.
  unfold raw_records, raw_emitted.
  now rewrite find_all_app, filter_app, map_app.
Qed.

Lemma normalized_records_app (s1 s2 : bs4.Soup) :
  normalized_records (s1 ++ s2)%list =
  (normalized_records s1 ++ normalized_records s2)%list.
Proof. unfold normalized_records. now rewrite find_all_app, entries_app. Qed.

(** X8: the records of a document made of two parts are those of the first
    part followed by those of the second, in both scripts: nothing is merged
    or deduplicated, so a repeated part repeats its records.  The title is the
    first part's when it has one, the second part's otherwise. *)
Theorem records_of_concatenation (s1 s2 : bs4.Soup) :
  raw_records (s1 ++ s2)%list = (raw_records s1 ++ raw_records s2)%list /\
  normalized_records (s1 ++ s2)%list =
    (normalized_records s1 ++ normalized_records s2)%list /\
  bs4.find "title" (s1 ++ s2)%list =
    match bs4.find "title" s1 with
    | Some t => Some t
    | None => bs4.find "title" s2
    end.
Proof.
  split; [apply raw_records_app | split; [apply normalized_records_app|]].
  unfold bs4.find. rewrite find_all_app.
  now destruct (bs4.find_all "title" s1).
Qed.

(** X9: replacing an element other than a [<meta>] by its contents leaves the
    records of both scripts unchanged: the scripts list the [<meta>] elements
    of the whole document, at any depth and under any parent, not only those
    of the head. *)
Theorem records_ignore_nesting (pre post cs : bs4.Soup) (nm : string)
    (a : bs4.Attrs) :
  (nm =? "meta") = false ->
  raw_records (pre ++ bs4.Tag nm a cs :: post)%list =
    raw_records (pre ++ cs ++ post)%list /\
  normalized_records (pre ++ bs4.Tag nm a cs :: post)%list =
    normalized_records (pre ++ cs ++ post)%list.
Proof.
  intros N.
  assert (F : bs4.find_all "meta" (pre ++ bs4.Tag nm a cs :: post)%list =
              bs4.find_all "meta" (pre ++ cs ++ post)%list).
  { change (bs4.Tag nm a cs :: post) with ([bs4.Tag nm a cs] ++ post)%list.
    rewrite !find_all_app, find_all_tag, N. reflexivity. }
  unfold raw_records, raw_emitted, normalized_records. now rewrite F.
Qed.

Lemma records_ignore_nesting_witness :
  raw_records MoreSamples.head_and_body =
    raw_records [bs4.Tag "head" [] [MoreSamples.description];
                 bs4.Tag "body" [] [Samples.og_title; Samples.no_content]] /\
  normalized_records MoreSamples.head_and_body =
    normalized_records [bs4.Tag "head" [] [MoreSamples.description];
                        bs4.Tag "body" [] [Samples.og_title; Samples.no_content]].
Proof.
  apply (records_ignore_nesting [] []
           [bs4.Tag "head" [] [MoreSamples.description];
            bs4.Tag "body" [] [Samples.og_title; Samples.no_content]]
           "html" []).
  reflexivity.
Defined.

Lemma subseq_filter_implies {A : Type} (p q : A -> bool) (l : list A) :
  (forall x, p x = true -> q x = true) ->
  subseq (filter p l) (filter q l).
Proof.
  intros H. induction l as [|x l IH]; simpl; [constructor|].
  destruct (p x) eqn:P.
  - rewrite (H x P). now apply subseq_take.
  - destruct (q x); [now apply subseq_skip | exact IH].
Qed.

(** X10: every tag that the file script prints would be dumped by the network
    script too, in the same relative order; a tag that the network script
    dumps is left out by the file script exactly when neither its [name] nor
    its [property] holds a non-empty value. *)
Theorem normalized_within_raw (soup : bs4.Soup) :
  subseq (normalized_emitted soup) (raw_emitted soup) /\
  (forall tag, In tag (raw_emitted soup) ->
     (~ In tag (normalized_emitted soup) <->
      Py.truthy (bs4.get "name" tag) = false /\
      Py.truthy (bs4.get "property" tag) = false)).
Proof.
  split.
  - apply subseq_filter_implies. exact has_entry_keyed.
  - unfold raw_emitted, normalized_emitted. intros tag Hin.
    apply filter_In in Hin. destruct Hin as (Hm & _).
    rewrite filter_In. unfold has_entry, meta_entry, Py.or_.
    destruct (Py.truthy (bs4.get "name" tag)) eqn:Tn.
    + rewrite Tn. split; [intros H; exfalso; apply H; now split | intros (D & _); discriminate].
    + destruct (Py.truthy (bs4.get "property" tag)) eqn:Tp.
      * split; [intros H; exfalso; apply H; now split | intros (_ & D); discriminate].
      * split; [now split | intros _ (_ & D); discriminate].
Qed.

(** ** The title in the two scripts *)

Lemma concat_empty_head (l : list string) :
  String.concat EmptyString (EmptyString :: l) = String.concat EmptyString l.
Proof. destruct l; reflexivity. Qed.

(** Below a node free of comments, [.string], when it is defined, is the
    joined text. *)
Lemma string_is_subtree_text :
  forall (n : bs4.PageElement) (s : string),
    comment_free n = true -> bs4.string_ n = Some s ->
    String.concat EmptyString (map bs4.own_text (bs4.subtree n)) = s.
Proof.
  fix IH 1. intros [nm a cs|s0|s0] s; simpl.
  - destruct cs as [|c [|c' cs']]; try discriminate.
    simpl. rewrite andb_true_r, app_nil_r. intros CF S.
    rewrite <- (IH c s CF S).
    apply (concat_empty_head (map bs4.own_text (bs4.subtree c))).
  - intros _ E. now inversion E.
  - discriminate.
Qed.

(** X11: the two scripts agree on the title whenever the network script has
    one to print: if the first [<title>] holds no comment and its [.string] is
    defined, the text printed by the file script is that same string. *)
Theorem title_string_is_title_text (soup : bs4.Soup) (t : bs4.PageElement)
    (s : string) :
  bs4.find "title" soup = Some t ->
  comment_free t = true ->
  title_string soup = Some s ->
  title_text soup = s.
Proof.
  intros F CF S. unfold title_string, bs4.title in S. rewrite F in S.
  unfold title_text. rewrite F.
  assert (E := string_is_subtree_text t s CF S).
  destruct t as [nm a cs|s0|s0].
  - change (String.concat EmptyString
              (EmptyString :: map bs4.own_text (bs4.descendants cs)) = s) in E.
    rewrite concat_empty_head in E. exact E.
  - unfold bs4.find, bs4.find_all in F.
    destruct (filter _ _) as [|x l] eqn:Fl; [discriminate|].
    inversion F; subst x.
    assert (I : In (bs4.NavigableString s0)
                   (filter (bs4.is_tag_named "title") (bs4.descendants soup)))
      by (rewrite Fl; now left).
    apply filter_In in I. destruct I as (_ & I). discriminate I.
  - discriminate CF.
Qed.

Lemma title_string_is_title_text_witness :
  title_text MoreSamples.bold_title = "Hello".
Proof.
  apply (title_string_is_title_text MoreSamples.bold_title
           (bs4.Tag "title" [] [bs4.Tag "b" [] [bs4.NavigableString "Hello"]])
           "Hello"); reflexivity.
Defined.

(** ** Edge cases of the listing *)

(** X12: in the printed listing of the file script an omitted [content]
    cannot be told from the literal content [None]: two tags with the same key,
    one without [content] and one with [content] equal to [None], have
    different entries and print the same line. *)
Theorem absent_content_prints_as_None (t1 t2 : bs4.PageElement)
    (e1 e2 : option string * option string) :
  meta_entry t1 = Some e1 -> meta_entry t2 = Some e2 ->
  fst e1 = fst e2 ->
  bs4.get "content" t1 = None ->
  bs4.get "content" t2 = Some "None" ->
  e1 <> e2 /\
  forall out, print_meta t1 out = print_meta t2 out.
Proof.
  intros E1 E2 K C1 C2.
  destruct (meta_entry_inv _ _ E1) as (k1 & _ & _ & V1).
  destruct (meta_entry_inv _ _ E2) as (k2 & _ & _ & V2).
  rewrite C1 in V1. rewrite C2 in V2. split.
  - intros ->. rewrite V1 in V2. discriminate.
  - intros out. rewrite (print_meta_some _ _ out E1), (print_meta_some _ _ out E2).
    unfold entry_line. now rewrite K, V1, V2.
Qed.

Lemma absent_content_prints_as_None_witness :
  (Some "robots", @None string) <> (Some "robots", Some "None") /\
  forall out, print_meta Samples.no_content out =
              print_meta MoreSamples.content_None out.
Proof.
  apply (absent_content_prints_as_None Samples.no_content
           MoreSamples.content_None (Some "robots", None)
           (Some "robots", Some "None")); reflexivity.
Defined.



(** ** Exit status of the file script *)

